(** * NoteApp: a shallow embedding of the Express/Mongoose request handlers

    Source: src/NoteApp/app.js, src/NoteApp/models/otp.js and the second
    variant of the application in src/unnamed/part_000.

    The three Mongo collections (users, otps, notes) are lists in natural
    (insertion) order; the mails handed to nodemailer are an outbox list.
    A request handler is a function from the database, the session and the
    request body to a response, the new database and the new session.
    Mongo ObjectIds are natural numbers, a JavaScript [Date] is an integer
    number of milliseconds, an absent session field ([undefined]) is [None].
    Path parameters [:id] are modelled as well-formed ObjectIds. *)

From Stdlib Require Import String List ZArith Lia Bool.
From Stdlib Require Import Sorting.Sorted Sorting.Permutation Sorting.Mergesort.
From Stdlib Require Import Structures.Orders.
Import ListNotations.
Open Scope string_scope.
Open Scope list_scope.

(** ** Data model *)

(** models/otp.js: [{ userIdentifier: String (required), otp: String, createdAt: Date }]
    plus the implicit [_id]. *)
Record OtpRecord := mkOtp {
  otp_id : nat;
  userIdentifier : string;
  otp : string;
  createdAt : Z
}.

(** models/user.js (not under src/): see [user_save]. *)
Record User := mkUser {
  user_id : nat;
  email : option string;
  password : string
}.

(** The Note schema of src/unnamed/part_000 (lines 4-12), with the
    [timestamps: true] fields. *)
Record Note := mkNote {
  note_id : nat;
  title : string;
  content : string;
  note_user : nat;
  note_createdAt : Z;
  note_updatedAt : Z
}.

(** A mail handed to [transporter.sendMail] ([from] omitted). *)
Record Mail := mkMail {
  mail_to : string;
  subject : string;
  text : string
}.

Record Db := mkDb {
  users : list User;
  otps : list OtpRecord;
  notes : list Note;
  outbox : list Mail
}.

(** [req.session]: the three keys the handlers read and write. *)
Record Session := mkSession {
  s_userIdentifier : option string;
  s_tempUserIdentifier : option string;
  s_userId : option nat
}.

(** What [res.render] receives as locals. *)
Inductive Locals :=
| LMessage (m : string)
| LNote (n : Note)
| LNotes (ns : list Note).

Inductive Response :=
| RSend (body : string)                          (* res.send(body) *)
| RRedirect (path : string)                      (* res.redirect(path) *)
| RRender (status : nat) (view : string) (locals : Locals)
| RError.                                        (* error passed to the top-level handler *)

Definition set_otps (db : Db) (l : list OtpRecord) : Db :=
  mkDb (users db) l (notes db) (outbox db).
Definition set_users (db : Db) (l : list User) : Db :=
  mkDb l (otps db) (notes db) (outbox db).
Definition set_notes (db : Db) (l : list Note) : Db :=
  mkDb (users db) (otps db) l (outbox db).
Definition send_mail (db : Db) (m : Mail) : Db :=
  mkDb (users db) (otps db) (notes db) (outbox db ++ [m]).

Definition set_userIdentifier (s : Session) (e : string) : Session :=
  mkSession (Some e) (s_tempUserIdentifier s) (s_userId s).
Definition set_tempUserIdentifier (s : Session) (e : string) : Session :=
  mkSession (s_userIdentifier s) (Some e) (s_userId s).
Definition set_userId (s : Session) (u : nat) : Session :=
  mkSession (s_userIdentifier s) (s_tempUserIdentifier s) (Some u).

(** JavaScript truthiness of a session string: [undefined] and [""] are falsy. *)
Definition falsy_string (v : option string) : bool :=
  match v with
  | None => true
  | Some s => String.eqb s ""
  end.

Definition opt_string_eqb (a b : option string) : bool :=
  match a, b with
  | None, None => true
  | Some x, Some y => String.eqb x y
  | _, _ => false
  end.

(** ** Mongo queries on the OTP collection *)

(** [OTP.find({ userIdentifier: email })], natural order. *)
Definition otp_find (l : list OtpRecord) (e : string) : list OtpRecord :=
  filter (fun r => String.eqb (userIdentifier r) e) l.

(** [OTP.deleteOne({ _id: id })]: removes the first document with that id. *)
Fixpoint otp_deleteOne (l : list OtpRecord) (id : nat) : list OtpRecord :=
  match l with
  | [] => []
  | r :: l' => if Nat.eqb (otp_id r) id then l' else r :: otp_deleteOne l' id
  end.

Fixpoint nodup_nat (l : list nat) : bool :=
  match l with
  | [] => true
  | x :: l' => negb (existsb (Nat.eqb x) l') && nodup_nat l'
  end.

(** [_id] is the primary key of every Mongo collection. *)
Definition otp_ids_unique (l : list OtpRecord) : bool := nodup_nat (map otp_id l).

(** [.sort({ createdAt: -1 })]: Mongo leaves the relative order of records
    with equal [createdAt] unspecified, so the handlers are parameterised by
    the sort, and the facts that need it assume only that it returns a
    permutation of its input in non-increasing [createdAt] order. *)
Definition desc_createdAt (a b : OtpRecord) : Prop := (createdAt b <= createdAt a)%Z.

Section Handlers.

Variable sort_desc : list OtpRecord -> list OtpRecord.

(** [app.post("/verify-otp", ...)], src/NoteApp/app.js lines 179-216
    (identical in src/unnamed/part_000 lines 197-235). *)
Definition verify_otp (db : Db) (s : Session) (otp_in : string)
  : Response * Db * Session :=
  match s_userIdentifier s with
  | None => (RSend "Session expired or email not found.", db, s)
  | Some email =>
    if String.eqb email "" then (RSend "Session expired or email not found.", db, s)
    else
      match sort_desc (otp_find (otps db) email) with
      | [] => (RSend "No OTP record found.", db, s)
      | latestOtp :: _ =>
        if negb (String.eqb (otp latestOtp) otp_in) then (RSend "Invalid OTP", db, s)
        else
          let db' := set_otps db (otp_deleteOne (otps db) (otp_id latestOtp)) in
          (RRedirect "/set-password", db', set_tempUserIdentifier s email)
      end
  end.

End Handlers.

(** ** Other Mongo queries *)

(** [User.findOne({ email })] with [email] a string from the request body. *)
Definition user_findOne (l : list User) (e : string) : option User :=
  find (fun u => opt_string_eqb (email u) (Some e)) l.

(** Modelled from the spec: the User model (src/NoteApp/models/user.js is
    required by app.js but not present): a User is [{ id, email (unique),
    passwordHash }].  [user.save()] inserts the document, and fails (the
    promise rejects) when another user already has the same email; a
    document saved without an email is indexed under [null], as Mongo does
    for a unique index, so a second one clashes with the first. *)
Definition user_save (db : Db) (u : User) : option Db :=
  if existsb (fun u' => opt_string_eqb (email u') (email u)) (users db) then None
  else Some (set_users db (users db ++ [u])).

(** [Note.findOne({ _id: id, user: uid })]. *)
Definition note_matches (id uid : nat) (n : Note) : bool :=
  Nat.eqb (note_id n) id && Nat.eqb (note_user n) uid.

Definition note_findOne (l : list Note) (id uid : nat) : option Note :=
  find (note_matches id uid) l.

(** [Note.findOneAndUpdate({ _id: id, user: uid }, { title, content }, { new: true })]:
    the first matching note gets the new title and content (and, by
    [timestamps: true], a new [updatedAt]); the updated note is returned. *)
Fixpoint note_findOneAndUpdate (l : list Note) (id uid : nat) (t c : string) (now : Z)
  : option Note * list Note :=
  match l with
  | [] => (None, [])
  | n :: l' =>
    if note_matches id uid n then
      let n' := mkNote (note_id n) t c (note_user n) (note_createdAt n) now in
      (Some n', n' :: l')
    else let '(r, l'') := note_findOneAndUpdate l' id uid t c now in (r, n :: l'')
  end.

(** [Note.findOneAndDelete({ _id: id, user: uid })]. *)
Fixpoint note_findOneAndDelete (l : list Note) (id uid : nat) : option Note * list Note :=
  match l with
  | [] => (None, [])
  | n :: l' =>
    if note_matches id uid n then (Some n, l')
    else let '(r, l'') := note_findOneAndDelete l' id uid in (r, n :: l'')
  end.

(** ** Request handlers *)

(** [requireLogin]: an ObjectId in the session is always truthy. *)
Definition requireLogin (db : Db) (s : Session)
  (next : nat -> Response * Db * Session) : Response * Db * Session :=
  match s_userId s with
  | None => (RRedirect "/login", db, s)
  | Some uid => next uid
  end.

Definition note_not_found : Response := RRender 404 "404" (LMessage "Note not found!").

(** [app.get("/notes/:id", ...)], app.js lines 91-105. *)
Definition get_note (db : Db) (s : Session) (id : nat) : Response * Db * Session :=
  requireLogin db s (fun uid =>
    match note_findOne (notes db) id uid with
    | None => (note_not_found, db, s)
    | Some n => (RRender 200 "notes/show" (LNote n), db, s)
    end).

(** [app.put("/notes/:id", ...)], app.js lines 118-129; [now] is the
    time Mongoose stamps into [updatedAt]. *)
Definition put_note (db : Db) (s : Session) (id : nat) (t c : string) (now : Z)
  : Response * Db * Session :=
  requireLogin db s (fun uid =>
    let '(r, l) := note_findOneAndUpdate (notes db) id uid t c now in
    match r with
    | None => (note_not_found, set_notes db l, s)
    | Some _ => (RRedirect "/notes", set_notes db l, s)
    end).

(** [app.delete("/notes/:id", ...)], app.js lines 132-138. *)
Definition delete_note (db : Db) (s : Session) (id : nat) : Response * Db * Session :=
  requireLogin db s (fun uid =>
    let '(r, l) := note_findOneAndDelete (notes db) id uid in
    match r with
    | None => (note_not_found, set_notes db l, s)
    | Some _ => (RRedirect "/notes", set_notes db l, s)
    end).

Definition otp_mail (email otpCode : string) : Mail :=
  mkMail email "Your OTP Code" ("Your OTP is " ++ otpCode ++ ".").

(** The body shared by both [/signup] variants, from [OTP.create] on.
    [otpCode] is the drawn code, [now] the [new Date()], [fresh] the new
    [_id]; [mail_ok] and [save_ok] say whether [sendMail] and
    [req.session.save] succeed.  [OTP.create] rejects an empty
    [userIdentifier] (Mongoose's [required] validator). *)
Definition signup_issue (db : Db) (s : Session) (email otpCode : string) (now : Z)
  (fresh : nat) (mail_ok save_ok : bool) : Response * Db * Session :=
  if String.eqb email "" then (RError, db, s)
  else
    let db1 := set_otps db (otps db ++ [mkOtp fresh email otpCode now]) in
    if negb mail_ok then (RError, db1, s)
    else
      let db2 := send_mail db1 (otp_mail email otpCode) in
      let s' := set_userIdentifier s email in
      if save_ok then (RRedirect "/verify-otp", db2, s')
      else (RSend "Session error", db2, s').

(** [app.post("/signup", ...)], src/NoteApp/app.js lines 144-169. *)
Definition signup (db : Db) (s : Session) (email otpCode : string) (now : Z)
  (fresh : nat) (mail_ok save_ok : bool) : Response * Db * Session :=
  signup_issue db s email otpCode now fresh mail_ok save_ok.

(** [app.post("/signup", ...)], src/unnamed/part_000 lines 157-187: the
    same, after [User.findOne({ email })]. *)
Definition signup_variant (db : Db) (s : Session) (email otpCode : string) (now : Z)
  (fresh : nat) (mail_ok save_ok : bool) : Response * Db * Session :=
  match user_findOne (users db) email with
  | Some _ => (RSend "Email already registered. Please login.", db, s)
  | None => signup_issue db s email otpCode now fresh mail_ok save_ok
  end.

(** [app.post("/set-password", ...)], app.js lines 223-231 (part_000
    lines 242-251); [hashed] is the result of [bcrypt.hash(password, 12)],
    [fresh] the new user's [_id]. *)
Definition set_password (db : Db) (s : Session) (hashed : string) (fresh : nat)
  : Response * Db * Session :=
  let user := mkUser fresh (s_tempUserIdentifier s) hashed in
  match user_save db user with
  | None => (RError, db, s)
  | Some db' => (RRedirect "/notes", db', set_userId s (user_id user))
  end.

(** [app.post("/login", ...)], app.js lines 236-246; [bcrypt_compare pw h]
    is the outcome of [bcrypt.compare(pw, h)]. *)
Definition login (bcrypt_compare : string -> string -> bool)
  (db : Db) (s : Session) (email pw : string) : Response * Db * Session :=
  match user_findOne (users db) email with
  | None => (RSend "No user", db, s)
  | Some user =>
    if negb (bcrypt_compare pw (password user)) then (RSend "Invalid Password", db, s)
    else (RRedirect "/notes", db, set_userId s (user_id user))
  end.

(** [app.get("/notes", ...)], app.js lines 68-71: [Note.find({ user: uid })]. *)
Definition list_notes (db : Db) (s : Session) : Response * Db * Session :=
  requireLogin db s (fun uid =>
    (RRender 200 "notes/index.ejs"
       (LNotes (filter (fun n => Nat.eqb (note_user n) uid) (notes db))), db, s)).

(** [app.post("/notes", ...)], app.js lines 80-89: [new Note({ title,
    content, user })] saved with the fresh [_id] and, by [timestamps: true],
    [createdAt = updatedAt = now]. *)
Definition create_note (db : Db) (s : Session) (t c : string) (fresh : nat) (now : Z)
  : Response * Db * Session :=
  requireLogin db s (fun uid =>
    (RRedirect "/notes", set_notes db (notes db ++ [mkNote fresh t c uid now now]), s)).

(** [app.get("/notes/:id/edit", ...)], app.js lines 109-115. *)
Definition edit_note_form (db : Db) (s : Session) (id : nat) : Response * Db * Session :=
  requireLogin db s (fun uid =>
    match note_findOne (notes db) id uid with
    | None => (note_not_found, db, s)
    | Some n => (RRender 200 "notes/edit" (LNote n), db, s)
    end).

(** [app.get("/logout", ...)], app.js lines 249-252: [req.session.destroy()]
    leaves the next request with an empty session. *)
Definition logout (db : Db) (s : Session) : Response * Db * Session :=
  (RRedirect "/login", db, mkSession None None None).

(** [app.post("/login", ...)], src/unnamed/part_000 lines 256-267: as in
    app.js, plus a check of [req.session.userId] right after setting it. *)
Definition login_variant (bcrypt_compare : string -> string -> bool)
  (db : Db) (s : Session) (email pw : string) : Response * Db * Session :=
  match user_findOne (users db) email with
  | None => (RSend "No user", db, s)
  | Some user =>
    if negb (bcrypt_compare pw (password user)) then (RSend "Invalid Password", db, s)
    else
      let s' := set_userId s (user_id user) in
      match s_userId s' with
      | None => (RRedirect "/login", db, s')
      | Some _ => (RRedirect "/notes", db, s')
      end
  end.

Definition note_ids_unique (l : list Note) : bool := nodup_nat (map note_id l).

(** A sort satisfies [.sort({ createdAt: -1 })] when it permutes its input
    into non-increasing [createdAt] order. *)
Definition mongo_sort_spec (f : list OtpRecord -> list OtpRecord) : Prop :=
  (forall l, Permutation (f l) l) /\ (forall l, Sorted desc_createdAt (f l)).

(** One such sort: the Standard Library's stable merge sort on the
    descending [createdAt] order (records created in the same millisecond
    keep their natural order). *)
Module OtpCreatedAtDesc <: TotalLeBool'.
Definition t := OtpRecord.
Definition leb (a b : t) : bool := Z.leb (createdAt b) (createdAt a).
Infix "<=?" := leb (at level 70, no associativity).
Lemma leb_total : forall a1 a2, is_true (leb a1 a2) \/ is_true (leb a2 a1).
Proof.
  intros a1 a2; unfold leb, is_true; rewrite !Z.leb_le; lia.
Qed.
End OtpCreatedAtDesc.

Module OtpSort := Sort OtpCreatedAtDesc.

Definition mongo_sort : list OtpRecord -> list OtpRecord := OtpSort.sort.

(** ** General facts about the model *)

Lemma mongo_sort_ok : mongo_sort_spec mongo_sort.
Proof.
  split.
  - intro l; apply Permutation_sym, OtpSort.Permuted_sort.
  - intro l. generalize (OtpSort.Sorted_sort l).
    apply Sorted_ind; [constructor|].
    intros a l' _ IH Hr; constructor; [exact IH|].
    destruct Hr as [|b l'' Hb]; constructor.
    unfold desc_createdAt; unfold OtpCreatedAtDesc.leb, is_true in Hb.
    apply Z.leb_le; exact Hb.
Qed.

Lemma otp_eq_dec : forall a b : OtpRecord, {a = b} + {a <> b}.
Proof.
  decide equality; try apply Z.eq_dec; try apply string_dec; apply Nat.eq_dec.
Qed.

Lemma in_otp_find : forall l e r, In r (otp_find l e) <-> In r l /\ userIdentifier r = e.
Proof.
  intros l e r; unfold otp_find; rewrite filter_In, String.eqb_eq; tauto.
Qed.

(** Under any Mongo-conforming sort, a record whose [createdAt] is strictly
    greater than that of every other record of the list comes first. *)
Lemma sorted_head_strict_max :
  forall f, mongo_sort_spec f ->
  forall l r, In r l -> (forall r', In r' l -> r' <> r -> (createdAt r' < createdAt r)%Z) ->
  exists rest, f l = r :: rest.
Proof.
  intros f [Hperm Hsorted] l r Hin Hmax.
  assert (Hin' : In r (f l)) by (eapply Permutation_in; [apply Permutation_sym, Hperm|exact Hin]).
  destruct (f l) as [|x rest] eqn:Hf; [destruct Hin'|].
  exists rest. destruct (otp_eq_dec x r) as [->|Hne]; [reflexivity|exfalso].
  destruct Hin' as [Heq|Hrest]; [congruence|].
  assert (Hss : StronglySorted desc_createdAt (x :: rest)).
  { rewrite <- Hf. apply Sorted_StronglySorted; [|apply Hsorted].
    intros a b c; unfold desc_createdAt; lia. }
  inversion Hss as [|? ? _ Hall]; subst.
  rewrite Forall_forall in Hall. specialize (Hall r Hrest); unfold desc_createdAt in Hall.
  assert (Hx : In x l).
  { eapply Permutation_in; [apply Hperm|]. rewrite Hf; left; reflexivity. }
  specialize (Hmax x Hx Hne). lia.
Qed.

Lemma sort_head_in :
  forall f, mongo_sort_spec f -> forall l r rest, f l = r :: rest -> In r l.
Proof.
  intros f [Hperm _] l r rest Hf.
  eapply Permutation_in; [apply Hperm|]. rewrite Hf; left; reflexivity.
Qed.

Lemma sort_nil : forall f, mongo_sort_spec f -> f [] = [].
Proof.
  intros f [Hperm _]. apply Permutation_nil, Permutation_sym, Hperm.
Qed.

Lemma existsb_eqb_false : forall x l, existsb (Nat.eqb x) l = false -> ~ In x l.
Proof.
  intros x l H Hin.
  assert (existsb (Nat.eqb x) l = true)
    by (apply existsb_exists; exists x; split; [exact Hin|apply Nat.eqb_refl]).
  congruence.
Qed.

(** [OTP.deleteOne({ _id })] with unique ids removes exactly that record. *)
Lemma otp_deleteOne_unique :
  forall l r, otp_ids_unique l = true -> In r l ->
  exists pre post, l = pre ++ r :: post /\ otp_deleteOne l (otp_id r) = pre ++ post.
Proof.
  unfold otp_ids_unique.
  induction l as [|x l IH]; intros r Hu Hin; [destruct Hin|].
  simpl in Hu. apply andb_prop in Hu as [Hx Hu]. apply negb_true_iff in Hx.
  simpl. destruct (Nat.eqb (otp_id x) (otp_id r)) eqn:E.
  - destruct Hin as [<-|Hin].
    + exists [], l. split; reflexivity.
    + exfalso. apply Nat.eqb_eq in E.
      apply (existsb_eqb_false _ _ Hx). rewrite E. apply in_map; exact Hin.
  - destruct Hin as [<-|Hin].
    + rewrite Nat.eqb_refl in E; discriminate.
    + destruct (IH r Hu Hin) as (pre & post & Hl & Hd).
      exists (x :: pre), post. rewrite Hd, Hl. split; reflexivity.
Qed.

Lemma set_otps_same : forall db, set_otps db (otps db) = db.
Proof. intros [u o n m]; reflexivity. Qed.

Lemma set_notes_same : forall db, set_notes db (notes db) = db.
Proof. intros [u o n m]; reflexivity. Qed.

Lemma note_findOneAndUpdate_none :
  forall l id uid t c now, (forall n, In n l -> note_matches id uid n = false) ->
  note_findOneAndUpdate l id uid t c now = (None, l).
Proof.
  induction l as [|x l IH]; intros id uid t c now H; [reflexivity|].
  simpl. rewrite (H x (or_introl eq_refl)).
  rewrite IH; [reflexivity|]. intros n Hn; apply H; right; exact Hn.
Qed.

Lemma note_findOneAndDelete_none :
  forall l id uid, (forall n, In n l -> note_matches id uid n = false) ->
  note_findOneAndDelete l id uid = (None, l).
Proof.
  induction l as [|x l IH]; intros id uid H; [reflexivity|].
  simpl. rewrite (H x (or_introl eq_refl)).
  rewrite IH; [reflexivity|]. intros n Hn; apply H; right; exact Hn.
Qed.

Lemma note_findOne_none :
  forall l id uid, (forall n, In n l -> note_matches id uid n = false) ->
  note_findOne l id uid = None.
Proof.
  intros l id uid H. unfold note_findOne.
  destruct (find (note_matches id uid) l) as [n|] eqn:E; [|reflexivity].
  apply find_some in E as [Hin Hm]. rewrite (H n Hin) in Hm; discriminate.
Qed.

Lemma note_findOneAndUpdate_shape :
  forall l id uid t c now,
  note_findOneAndUpdate l id uid t c now = (None, l) \/
  exists pre n post, l = pre ++ n :: post /\ note_matches id uid n = true /\
    note_findOneAndUpdate l id uid t c now =
      (Some (mkNote (note_id n) t c (note_user n) (note_createdAt n) now),
       pre ++ mkNote (note_id n) t c (note_user n) (note_createdAt n) now :: post).
Proof.
  induction l as [|x l IH]; intros id uid t c now; [left; reflexivity|].
  simpl. destruct (note_matches id uid x) eqn:Hm.
  - right. exists [], x, l. auto.
  - destruct (IH id uid t c now) as [-> | (pre & n & post & Hl & Hn & ->)].
    + left; reflexivity.
    + right. exists (x :: pre), n, post. rewrite Hl. auto.
Qed.

Lemma note_findOneAndDelete_shape :
  forall l id uid,
  note_findOneAndDelete l id uid = (None, l) \/
  exists pre n post, l = pre ++ n :: post /\ note_matches id uid n = true /\
    note_findOneAndDelete l id uid = (Some n, pre ++ post).
Proof.
  induction l as [|x l IH]; intros id uid; [left; reflexivity|].
  simpl. destruct (note_matches id uid x) eqn:Hm.
  - right. exists [], x, l. auto.
  - destruct (IH id uid) as [-> | (pre & n & post & Hl & Hn & ->)].
    + left; reflexivity.
    + right. exists (x :: pre), n, post. rewrite Hl. auto.
Qed.

(** ** Concrete stores used by the witnesses and counterexamples *)

Definition alice : string := "alice@example.com".

(** Two signups for [alice] before verification; both mails carried the
    same code. *)
Definition db_two_same_code : Db :=
  mkDb [] [mkOtp 1 alice "482913" 1000; mkOtp 2 alice "482913" 2000] [] [].

(** Two signups for [alice] with different codes, and a record of another
    identity. *)
Definition db_two_codes : Db :=
  mkDb [] [mkOtp 1 alice "111111" 1000; mkOtp 3 "bob@example.com" "333333" 1500;
           mkOtp 2 alice "222222" 2000] [] [].

Definition s_pending : Session := mkSession (Some alice) None None.
Definition s_anonymous : Session := mkSession None None None.

(** ** Claims about [POST /verify-otp] *)

(** C1 (amended).  When the pending email's records have a unique newest
    record [r], [/verify-otp] compares the code with [r]'s only: when the
    submitted code equals [r]'s code it succeeds, deletes [r] (the record
    with [r]'s id) and marks the email verified; otherwise it fails with the
    mismatch outcome ("Invalid OTP") and changes nothing.  So the code of an
    older, never-consumed record fails exactly when it differs from [r]'s
    code, and when it equals it, [r] is the record consumed. *)
Theorem verify_otp_latest_wins :
  forall f, mongo_sort_spec f ->
  forall db s e r code,
  s_userIdentifier s = Some e -> e <> "" ->
  In r (otps db) -> userIdentifier r = e ->
  (forall r', In r' (otps db) -> userIdentifier r' = e -> r' <> r ->
     (createdAt r' < createdAt r)%Z) ->
  verify_otp f db s code =
    if String.eqb (otp r) code
    then (RRedirect "/set-password", set_otps db (otp_deleteOne (otps db) (otp_id r)),
          set_tempUserIdentifier s e)
    else (RSend "Invalid OTP", db, s).
Proof.
  intros f Hf db s e r code Hs He Hr Hre Hmax.
  unfold verify_otp. rewrite Hs.
  apply String.eqb_neq in He; rewrite He.
  destruct (sorted_head_strict_max f Hf (otp_find (otps db) e) r) as [rest ->].
  - apply in_otp_find; auto.
  - intros r' Hr' Hne. apply in_otp_find in Hr' as [Hr' Hr'e]. auto.
  - destruct (String.eqb (otp r) code); reflexivity.
Qed.

Lemma verify_otp_latest_wins_witness :
  verify_otp mongo_sort db_two_codes s_pending "111111" =
    (RSend "Invalid OTP", db_two_codes, s_pending) /\
  verify_otp mongo_sort db_two_codes s_pending "222222" =
    (RRedirect "/set-password",
     set_otps db_two_codes (otp_deleteOne (otps db_two_codes) 2),
     set_tempUserIdentifier s_pending alice).
Proof.
  split.
  - refine (eq_trans (verify_otp_latest_wins mongo_sort mongo_sort_ok db_two_codes s_pending
              alice (mkOtp 2 alice "222222" 2000) "111111" eq_refl _ _ eq_refl _) eq_refl).
    + discriminate.
    + simpl; auto.
    + intros r' Hr' Hre Hne. simpl in Hr'.
      destruct Hr' as [<-|[<-|[<-|[]]]]; simpl in *; [lia|discriminate|congruence].
  - refine (eq_trans (verify_otp_latest_wins mongo_sort mongo_sort_ok db_two_codes s_pending
              alice (mkOtp 2 alice "222222" 2000) "222222" eq_refl _ _ eq_refl _) eq_refl).
    + discriminate.
    + simpl; auto.
    + intros r' Hr' Hre Hne. simpl in Hr'.
      destruct Hr' as [<-|[<-|[<-|[]]]]; simpl in *; [lia|discriminate|congruence].
Defined.

(** C1 counterexample: the older record (id 1, created at 1000) was never
    consumed and the newer one (id 2, created at 2000) is the latest, yet
    submitting the older record's code succeeds, because both carry the same
    code; the newer record is the one deleted. *)
Lemma verify_otp_older_code_counterexample :
  (createdAt (mkOtp 1 alice "482913" 1000) < createdAt (mkOtp 2 alice "482913" 2000))%Z /\
  verify_otp mongo_sort db_two_same_code s_pending (otp (mkOtp 1 alice "482913" 1000)) =
    (RRedirect "/set-password", mkDb [] [mkOtp 1 alice "482913" 1000] [] [],
     mkSession (Some alice) (Some alice) None).
Proof.
  split; [simpl; lia | vm_compute; reflexivity].
Qed.

(** C2 (amended).  When the submitted code equals the code of the most
    recent record [r] for the pending email (the head of the sorted query),
    [/verify-otp] deletes exactly [r] from the OTP collection (every other
    record stays, in order), sets the verified identity
    ([tempUserIdentifier]) to the email, keeps the pending email
    ([userIdentifier]) in the session, and leaves the authenticated user id
    as it was. *)
Theorem verify_otp_match_consumes_latest :
  forall f, mongo_sort_spec f ->
  forall db s e r rest code,
  s_userIdentifier s = Some e -> e <> "" ->
  f (otp_find (otps db) e) = r :: rest -> otp r = code ->
  otp_ids_unique (otps db) = true ->
  exists pre post, otps db = pre ++ r :: post /\
    verify_otp f db s code =
      (RRedirect "/set-password", set_otps db (pre ++ post),
       mkSession (Some e) (Some e) (s_userId s)).
Proof.
  intros f Hf db s e r rest code Hs He Hsort Hcode Hu.
  assert (Hin : In r (otps db)).
  { apply (in_otp_find (otps db) e r). eapply sort_head_in; eauto. }
  destruct (otp_deleteOne_unique (otps db) r Hu Hin) as (pre & post & Hl & Hd).
  exists pre, post. split; [exact Hl|].
  unfold verify_otp. rewrite Hs. apply String.eqb_neq in He; rewrite He.
  rewrite Hsort, Hcode, String.eqb_refl. simpl negb. cbv iota.
  rewrite Hd. unfold set_tempUserIdentifier. rewrite Hs. reflexivity.
Qed.

Lemma verify_otp_match_consumes_latest_witness :
  exists pre post, otps db_two_codes = pre ++ mkOtp 2 alice "222222" 2000 :: post /\
    verify_otp mongo_sort db_two_codes s_pending "222222" =
      (RRedirect "/set-password", set_otps db_two_codes (pre ++ post),
       mkSession (Some alice) (Some alice) None).
Proof.
  apply (verify_otp_match_consumes_latest mongo_sort mongo_sort_ok db_two_codes s_pending
           alice (mkOtp 2 alice "222222" 2000) [mkOtp 1 alice "111111" 1000] "222222").
  - reflexivity.
  - discriminate.
  - vm_compute; reflexivity.
  - reflexivity.
  - vm_compute; reflexivity.
Defined.

(** C2 counterexample: after a successful verification the session still
    holds the pending email next to the verified one; the pending identity
    is not replaced. *)
Lemma verify_otp_keeps_pending_counterexample :
  s_userIdentifier (snd (verify_otp mongo_sort db_two_codes s_pending "222222")) = Some alice /\
  s_tempUserIdentifier (snd (verify_otp mongo_sort db_two_codes s_pending "222222")) = Some alice.
Proof.
  split; vm_compute; reflexivity.
Qed.

(** C4.  When the submitted code differs from the code of the most recent
    record for the pending email, [/verify-otp] answers "Invalid OTP" (the
    mismatch outcome) and changes neither the database (no record deleted)
    nor the session (no verified identity, no user id set). *)
Theorem verify_otp_mismatch_no_effect :
  forall f db s e r rest code,
  s_userIdentifier s = Some e -> e <> "" ->
  f (otp_find (otps db) e) = r :: rest -> otp r <> code ->
  verify_otp f db s code = (RSend "Invalid OTP", db, s).
Proof.
  intros f db s e r rest code Hs He Hsort Hne.
  unfold verify_otp. rewrite Hs. apply String.eqb_neq in He; rewrite He.
  rewrite Hsort. apply String.eqb_neq in Hne. rewrite Hne. reflexivity.
Qed.

Lemma verify_otp_mismatch_no_effect_witness :
  verify_otp mongo_sort db_two_codes s_pending "111111" = (RSend "Invalid OTP", db_two_codes, s_pending).
Proof.
  apply (verify_otp_mismatch_no_effect mongo_sort db_two_codes s_pending alice
           (mkOtp 2 alice "222222" 2000) [mkOtp 1 alice "111111" 1000] "111111").
  - reflexivity.
  - discriminate.
  - vm_compute; reflexivity.
  - discriminate.
Defined.

(** C7.  Without a pending email in the session (absent, or the falsy
    empty string) [/verify-otp] answers "Session expired or email not
    found." (NoPendingIdentity); with a pending email but no OTP record for
    it, it answers "No OTP record found." (NoOtpFound).  In both cases the
    database and the session are unchanged. *)
Theorem verify_otp_no_pending_or_no_record :
  forall f, mongo_sort_spec f ->
  forall db s code,
  (falsy_string (s_userIdentifier s) = true ->
     verify_otp f db s code = (RSend "Session expired or email not found.", db, s)) /\
  (forall e, s_userIdentifier s = Some e -> e <> "" -> otp_find (otps db) e = [] ->
     verify_otp f db s code = (RSend "No OTP record found.", db, s)).
Proof.
  intros f Hf db s code. split.
  - unfold falsy_string, verify_otp. destruct (s_userIdentifier s) as [e|]; [|reflexivity].
    intros He; rewrite He; reflexivity.
  - intros e Hs He Hnone. unfold verify_otp. rewrite Hs.
    apply String.eqb_neq in He; rewrite He. rewrite Hnone, (sort_nil f Hf). reflexivity.
Qed.

Lemma verify_otp_no_pending_or_no_record_witness :
  verify_otp mongo_sort db_two_codes s_anonymous "111111" =
    (RSend "Session expired or email not found.", db_two_codes, s_anonymous) /\
  verify_otp mongo_sort db_two_codes (mkSession (Some "carol@example.com") None None) "111111" =
    (RSend "No OTP record found.", db_two_codes, mkSession (Some "carol@example.com") None None).
Proof.
  split.
  - apply (proj1 (verify_otp_no_pending_or_no_record mongo_sort mongo_sort_ok
                    db_two_codes s_anonymous "111111")).
    reflexivity.
  - apply (proj2 (verify_otp_no_pending_or_no_record mongo_sort mongo_sort_ok db_two_codes
                    (mkSession (Some "carol@example.com") None None) "111111") "carol@example.com").
    + reflexivity.
    + discriminate.
    + vm_compute; reflexivity.
Defined.

(** ** Claims about [POST /set-password] *)

(** C3 (code_bug).  Without a verified identity in the session (no
    successful [/verify-otp]), [/set-password] does not fail: it saves a
    User with no email and the submitted password's hash, and authenticates
    the session as that user. *)
Theorem set_password_without_verified_identity :
  set_password (mkDb [] [] [] []) s_anonymous "$2b$12$hashOfSecret" 7 =
    (RRedirect "/notes", mkDb [mkUser 7 None "$2b$12$hashOfSecret"] [] [] [],
     mkSession None None (Some 7)).
Proof. reflexivity. Qed.

(** ** Claims about [POST /signup] *)

(** C5 (amended).  A signup with a non-empty email whose mail is accepted
    appends exactly one OTP record, carrying the submitted email, the drawn
    code and the request time, after the records already present (which
    stay); the mail it sends goes to that email and its text is
    "Your OTP is <code>." with the record's code.  The number of records
    for the email grows by one, so it is one only when there was none
    before.  The same holds in the part_000 variant when no User has that
    email. *)
Theorem signup_adds_one_record :
  forall db s e code now fresh save_ok,
  e <> "" ->
  let r := mkOtp fresh e code now in
  let db' := snd (fst (signup db s e code now fresh true save_ok)) in
  otps db' = otps db ++ [r] /\ userIdentifier r = e /\
  outbox db' = outbox db ++ [mkMail e "Your OTP Code" ("Your OTP is " ++ otp r ++ ".")] /\
  users db' = users db /\ notes db' = notes db /\
  length (otp_find (otps db') e) = S (length (otp_find (otps db) e)) /\
  (user_findOne (users db) e = None ->
     signup_variant db s e code now fresh true save_ok = signup db s e code now fresh true save_ok).
Proof.
  intros db s e code now fresh save_ok He r db'.
  assert (Hdb' : db' = send_mail (set_otps db (otps db ++ [r])) (otp_mail e code)).
  { unfold db', signup, signup_issue. apply String.eqb_neq in He; rewrite He.
    destruct save_ok; reflexivity. }
  rewrite Hdb'. simpl. repeat split.
  - unfold otp_find. rewrite filter_app, length_app. simpl.
    rewrite String.eqb_refl. simpl. lia.
  - intros Hnone. unfold signup_variant, signup. rewrite Hnone. reflexivity.
Qed.

Lemma signup_adds_one_record_witness :
  let r := mkOtp 4 alice "654321" 3000 in
  let db' := snd (fst (signup db_two_codes s_anonymous alice "654321" 3000 4 true true)) in
  otps db' = otps db_two_codes ++ [r] /\ userIdentifier r = alice /\
  outbox db' = outbox db_two_codes ++ [mkMail alice "Your OTP Code" ("Your OTP is " ++ otp r ++ ".")] /\
  users db' = users db_two_codes /\ notes db' = notes db_two_codes /\
  length (otp_find (otps db') alice) = S (length (otp_find (otps db_two_codes) alice)) /\
  (user_findOne (users db_two_codes) alice = None ->
     signup_variant db_two_codes s_anonymous alice "654321" 3000 4 true true =
     signup db_two_codes s_anonymous alice "654321" 3000 4 true true).
Proof.
  apply (signup_adds_one_record db_two_codes s_anonymous alice "654321" 3000 4 true).
  discriminate.
Defined.

(** C5 counterexample: a second signup for [alice] (first record still
    unverified) leaves two OTP records with her email, not one. *)
Lemma signup_second_request_counterexample :
  let db' := snd (fst (signup (mkDb [] [mkOtp 1 alice "111111" 1000] [] []) s_anonymous
                             alice "222222" 2000 2 true true)) in
  length (otp_find (otps db') alice) = 2.
Proof. vm_compute; reflexivity. Qed.

(** C10.  In the part_000 variant, a signup for an email some User already
    has answers "Email already registered. Please login." and changes
    nothing: no OTP record, no mail, no pending identity.  The app.js
    variant never gives that answer, so the two differ on every such
    input. *)
Theorem signup_variant_registered_email :
  forall db s e u code now fresh mail_ok save_ok,
  user_findOne (users db) e = Some u ->
  signup_variant db s e code now fresh mail_ok save_ok =
    (RSend "Email already registered. Please login.", db, s) /\
  fst (fst (signup db s e code now fresh mail_ok save_ok)) <>
    RSend "Email already registered. Please login.".
Proof.
  intros db s e u code now fresh mail_ok save_ok Hu. split.
  - unfold signup_variant. rewrite Hu. reflexivity.
  - unfold signup, signup_issue.
    destruct (String.eqb e ""); [discriminate|].
    destruct mail_ok, save_ok; simpl; discriminate.
Qed.

Definition db_alice_registered : Db :=
  mkDb [mkUser 7 (Some alice) "$2b$12$hashOfSecret"] [] [] [].

Lemma signup_variant_registered_email_witness :
  signup_variant db_alice_registered s_anonymous alice "654321" 3000 4 true true =
    (RSend "Email already registered. Please login.", db_alice_registered, s_anonymous) /\
  fst (fst (signup db_alice_registered s_anonymous alice "654321" 3000 4 true true)) <>
    RSend "Email already registered. Please login.".
Proof.
  apply (signup_variant_registered_email db_alice_registered s_anonymous alice
           (mkUser 7 (Some alice) "$2b$12$hashOfSecret")).
  reflexivity.
Defined.

(** ** Claims about [POST /login] *)

(** C8.  [/login] answers "No user" (UserNotFound) when no User has the
    email, "Invalid Password" (InvalidPassword) when [bcrypt.compare]
    fails, and otherwise sets the session's user id to the User's id and
    redirects to /notes; the database and the OTP-related session keys are
    untouched in every case. *)
Theorem login_outcomes :
  forall bcrypt_compare db s e pw,
  (user_findOne (users db) e = None ->
     login bcrypt_compare db s e pw = (RSend "No user", db, s)) /\
  (forall u, user_findOne (users db) e = Some u -> bcrypt_compare pw (password u) = false ->
     login bcrypt_compare db s e pw = (RSend "Invalid Password", db, s)) /\
  (forall u, user_findOne (users db) e = Some u -> bcrypt_compare pw (password u) = true ->
     login bcrypt_compare db s e pw =
       (RRedirect "/notes", db,
        mkSession (s_userIdentifier s) (s_tempUserIdentifier s) (Some (user_id u)))).
Proof.
  intros bc db s e pw. unfold login. repeat split.
  - intros H; rewrite H; reflexivity.
  - intros u H Hc; rewrite H, Hc; reflexivity.
  - intros u H Hc; rewrite H, Hc; reflexivity.
Qed.

Definition bcrypt_compare_demo (pw h : string) : bool :=
  String.eqb h ("$2b$12$hashOf" ++ pw).

Lemma login_outcomes_witness :
  login bcrypt_compare_demo db_alice_registered s_anonymous "bob@example.com" "Secret" =
    (RSend "No user", db_alice_registered, s_anonymous) /\
  login bcrypt_compare_demo db_alice_registered s_anonymous alice "wrong" =
    (RSend "Invalid Password", db_alice_registered, s_anonymous) /\
  login bcrypt_compare_demo db_alice_registered s_anonymous alice "Secret" =
    (RRedirect "/notes", db_alice_registered, mkSession None None (Some 7)).
Proof.
  destruct (login_outcomes bcrypt_compare_demo db_alice_registered s_anonymous
              "bob@example.com" "Secret") as [H1 _].
  destruct (login_outcomes bcrypt_compare_demo db_alice_registered s_anonymous
              alice "wrong") as [_ [H2 _]].
  destruct (login_outcomes bcrypt_compare_demo db_alice_registered s_anonymous
              alice "Secret") as [_ [_ H3]].
  split; [apply H1; reflexivity|split].
  - apply (H2 (mkUser 7 (Some alice) "$2b$12$hashOfSecret")); reflexivity.
  - apply (H3 (mkUser 7 (Some alice) "$2b$12$hashOfSecret")); reflexivity.
Defined.

(** ** Claims about [/notes/:id] *)

Lemma no_match_of_foreign : forall l id uid,
  (forall n, In n l -> note_id n = id -> note_user n <> uid) ->
  forall n, In n l -> note_matches id uid n = false.
Proof.
  intros l id uid H n Hn. unfold note_matches.
  destruct (Nat.eqb (note_id n) id) eqn:E1; [|reflexivity].
  destruct (Nat.eqb (note_user n) uid) eqn:E2; [|reflexivity].
  apply Nat.eqb_eq in E1, E2. exfalso. exact (H n Hn E1 E2).
Qed.

Lemma no_match_of_absent : forall l id uid,
  (forall n, In n l -> note_id n <> id) ->
  forall n, In n l -> note_matches id uid n = false.
Proof.
  intros l id uid H n Hn. unfold note_matches.
  destruct (Nat.eqb (note_id n) id) eqn:E1; [|reflexivity].
  apply Nat.eqb_eq in E1. exfalso. exact (H n Hn E1).
Qed.

(** C6.  For an authenticated session of user [uid], a note id [id] whose
    note(s) belong to other users and an id [id'] no note has: GET, PUT and
    DELETE on [/notes/id] give exactly the result (response, database,
    session) they give on [/notes/id'], namely the 404 "Note not found!"
    page with nothing changed. *)
Theorem notes_foreign_same_as_missing :
  forall db s uid id id' t c now,
  s_userId s = Some uid ->
  (forall n, In n (notes db) -> note_id n = id -> note_user n <> uid) ->
  (forall n, In n (notes db) -> note_id n <> id') ->
  get_note db s id = get_note db s id' /\
  put_note db s id t c now = put_note db s id' t c now /\
  delete_note db s id = delete_note db s id' /\
  get_note db s id = (note_not_found, db, s) /\
  put_note db s id t c now = (note_not_found, db, s) /\
  delete_note db s id = (note_not_found, db, s).
Proof.
  intros db s uid id id' t c now Hs Hforeign Habsent.
  pose proof (no_match_of_foreign _ _ _ Hforeign) as H1.
  pose proof (no_match_of_absent _ _ uid Habsent) as H2.
  unfold get_note, put_note, delete_note, requireLogin. rewrite Hs.
  rewrite (note_findOne_none _ _ _ H1), (note_findOne_none _ _ _ H2).
  rewrite (note_findOneAndUpdate_none _ _ _ t c now H1),
          (note_findOneAndUpdate_none _ _ _ t c now H2).
  rewrite (note_findOneAndDelete_none _ _ _ H1), (note_findOneAndDelete_none _ _ _ H2).
  rewrite set_notes_same. repeat split.
Qed.

Definition db_alice_note : Db :=
  mkDb [mkUser 7 (Some alice) "$2b$12$hashOfSecret"; mkUser 8 (Some "bob@example.com") "$2b$12$hashOfPw"]
       [] [mkNote 50 "groceries" "milk" 7 100 100] [].

Definition s_bob : Session := mkSession None None (Some 8).

Lemma notes_foreign_same_as_missing_witness :
  get_note db_alice_note s_bob 50 = get_note db_alice_note s_bob 99 /\
  put_note db_alice_note s_bob 50 "x" "y" 500 = put_note db_alice_note s_bob 99 "x" "y" 500 /\
  delete_note db_alice_note s_bob 50 = delete_note db_alice_note s_bob 99 /\
  get_note db_alice_note s_bob 50 = (note_not_found, db_alice_note, s_bob) /\
  put_note db_alice_note s_bob 50 "x" "y" 500 = (note_not_found, db_alice_note, s_bob) /\
  delete_note db_alice_note s_bob 50 = (note_not_found, db_alice_note, s_bob).
Proof.
  apply (notes_foreign_same_as_missing db_alice_note s_bob 8 50 99 "x" "y" 500).
  - reflexivity.
  - intros n [<-|[]] _; simpl; discriminate.
  - intros n [<-|[]]; simpl; discriminate.
Defined.

(** C9.  For an authenticated session of user [uid], PUT and DELETE on
    [/notes/id] leave users, OTP records, mails and the session unchanged,
    and either leave the notes unchanged or change exactly one note [n]
    with id [id] and owner [uid], in place: PUT gives it the new title,
    content and [updatedAt] (keeping id, owner and [createdAt]), DELETE
    removes it; all notes before and after it stay as they were. *)
Theorem note_write_frame :
  forall db s uid id t c now,
  s_userId s = Some uid ->
  (let '(_, db', s') := put_note db s id t c now in
   users db' = users db /\ otps db' = otps db /\ outbox db' = outbox db /\ s' = s /\
   (notes db' = notes db \/
    exists pre n post, notes db = pre ++ n :: post /\ note_matches id uid n = true /\
      notes db' = pre ++ mkNote (note_id n) t c (note_user n) (note_createdAt n) now :: post)) /\
  (let '(_, db', s') := delete_note db s id in
   users db' = users db /\ otps db' = otps db /\ outbox db' = outbox db /\ s' = s /\
   (notes db' = notes db \/
    exists pre n post, notes db = pre ++ n :: post /\ note_matches id uid n = true /\
      notes db' = pre ++ post)).
Proof.
  intros db s uid id t c now Hs.
  unfold put_note, delete_note, requireLogin. rewrite Hs. split.
  - destruct (note_findOneAndUpdate_shape (notes db) id uid t c now)
      as [-> | (pre & n & post & Hl & Hn & ->)].
    + simpl. repeat split. left; reflexivity.
    + simpl. repeat split. right. exists pre, n, post. auto.
  - destruct (note_findOneAndDelete_shape (notes db) id uid)
      as [-> | (pre & n & post & Hl & Hn & ->)].
    + simpl. repeat split. left; reflexivity.
    + simpl. repeat split. right. exists pre, n, post. auto.
Qed.

Lemma note_write_frame_witness :
  (let '(_, db', s') := put_note db_alice_note (mkSession None None (Some 7)) 50 "x" "y" 500 in
   users db' = users db_alice_note /\ otps db' = otps db_alice_note /\
   outbox db' = outbox db_alice_note /\ s' = mkSession None None (Some 7) /\
   (notes db' = notes db_alice_note \/
    exists pre n post, notes db_alice_note = pre ++ n :: post /\ note_matches 50 7 n = true /\
      notes db' = pre ++ mkNote (note_id n) "x" "y" (note_user n) (note_createdAt n) 500 :: post)) /\
  (let '(_, db', s') := delete_note db_alice_note (mkSession None None (Some 7)) 50 in
   users db' = users db_alice_note /\ otps db' = otps db_alice_note /\
   outbox db' = outbox db_alice_note /\ s' = mkSession None None (Some 7) /\
   (notes db' = notes db_alice_note \/
    exists pre n post, notes db_alice_note = pre ++ n :: post /\ note_matches 50 7 n = true /\
      notes db' = pre ++ post)).
Proof.
  apply (note_write_frame db_alice_note (mkSession None None (Some 7)) 7 50 "x" "y" 500).
  reflexivity.
Defined.

(** ** Further properties of the handlers *)

Lemma nodup_nat_NoDup : forall l, nodup_nat l = true <-> NoDup l.
Proof.
  induction l as [|x l IH]; simpl; split; intros H.
  - constructor.
  - reflexivity.
  - apply andb_prop in H as [Hx Hl]. apply negb_true_iff in Hx.
    constructor; [apply existsb_eqb_false; exact Hx|apply IH; exact Hl].
  - inversion H as [|? ? Hnin Hnd]; subst.
    apply andb_true_intro; split; [|apply IH; exact Hnd].
    apply negb_true_iff. destruct (existsb (Nat.eqb x) l) eqn:E; [|reflexivity].
    apply existsb_exists in E as (y & Hy & Hxy). apply Nat.eqb_eq in Hxy; subst.
    contradiction.
Qed.

(** [/verify-otp], whatever its outcome and whatever the sort, never touches
    the users, the notes or the mails, and never changes the pending email
    or the authenticated user id of the session. *)
Theorem verify_otp_frame :
  forall f db s code,
  let '(_, db', s') := verify_otp f db s code in
  users db' = users db /\ notes db' = notes db /\ outbox db' = outbox db /\
  s_userIdentifier s' = s_userIdentifier s /\ s_userId s' = s_userId s.
Proof.
  intros f db s code. unfold verify_otp.
  destruct (s_userIdentifier s) as [e|] eqn:Hs; [|cbn; rewrite Hs; auto].
  destruct (String.eqb e ""); [cbn; rewrite Hs; auto|].
  destruct (f (otp_find (otps db) e)) as [|r rest]; [cbn; rewrite Hs; auto|].
  destruct (negb (String.eqb (otp r) code)); cbn; rewrite Hs; auto.
Qed.

(** A successful [/verify-otp] consumes the record it matched: with unique
    ids, that record is no longer in the OTP collection afterwards, and the
    ids stay unique. *)
Theorem verify_otp_single_use :
  forall f, mongo_sort_spec f ->
  forall db s e r rest,
  s_userIdentifier s = Some e -> e <> "" ->
  f (otp_find (otps db) e) = r :: rest ->
  otp_ids_unique (otps db) = true ->
  let db' := snd (fst (verify_otp f db s (otp r))) in
  ~ In r (otps db') /\ otp_ids_unique (otps db') = true.
Proof.
  intros f Hf db s e r rest Hs He Hsort Hu db'.
  assert (Hin : In r (otps db)).
  { apply (in_otp_find (otps db) e r). eapply sort_head_in; eauto. }
  destruct (otp_deleteOne_unique (otps db) r Hu Hin) as (pre & post & Hl & Hd).
  assert (Hdb' : otps db' = pre ++ post).
  { unfold db', verify_otp. rewrite Hs. apply String.eqb_neq in He; rewrite He.
    rewrite Hsort, String.eqb_refl. simpl. exact Hd. }
  rewrite Hdb'. unfold otp_ids_unique in *. rewrite Hl, nodup_nat_NoDup, map_app in Hu.
  simpl in Hu. split.
  - intros Hr. apply (NoDup_remove_2 _ _ _ Hu). rewrite <- map_app. apply in_map; exact Hr.
  - rewrite nodup_nat_NoDup, map_app. exact (NoDup_remove_1 _ _ _ Hu).
Qed.

Lemma verify_otp_single_use_witness :
  let db' := snd (fst (verify_otp mongo_sort db_two_codes s_pending
                         (otp (mkOtp 2 alice "222222" 2000)))) in
  ~ In (mkOtp 2 alice "222222" 2000) (otps db') /\ otp_ids_unique (otps db') = true.
Proof.
  apply (verify_otp_single_use mongo_sort mongo_sort_ok db_two_codes s_pending alice
           (mkOtp 2 alice "222222" 2000) [mkOtp 1 alice "111111" 1000]).
  - reflexivity.
  - discriminate.
  - vm_compute; reflexivity.
  - reflexivity.
Defined.

(** [/signup] with an empty email fails in [OTP.create] and changes
    nothing; when the mail cannot be sent, the OTP record is already stored
    (an orphan record), no mail is recorded and the session gets no pending
    email. *)
Theorem signup_failure_modes :
  forall db s e code now fresh save_ok,
  (e = "" -> forall mail_ok, signup db s e code now fresh mail_ok save_ok = (RError, db, s)) /\
  (e <> "" -> signup db s e code now fresh false save_ok =
                (RError, set_otps db (otps db ++ [mkOtp fresh e code now]), s)).
Proof.
  intros db s e code now fresh save_ok. split.
  - intros -> mail_ok. reflexivity.
  - intros He. unfold signup, signup_issue. apply String.eqb_neq in He. rewrite He.
    reflexivity.
Qed.

Lemma signup_failure_modes_witness :
  signup db_two_codes s_anonymous "" "654321" 3000 4 true true = (RError, db_two_codes, s_anonymous) /\
  signup db_two_codes s_anonymous alice "654321" 3000 4 false true =
    (RError, set_otps db_two_codes (otps db_two_codes ++ [mkOtp 4 alice "654321" 3000]), s_anonymous).
Proof.
  destruct (signup_failure_modes db_two_codes s_anonymous "" "654321" 3000 4 true) as [H1 _].
  destruct (signup_failure_modes db_two_codes s_anonymous alice "654321" 3000 4 true) as [_ H2].
  split; [apply H1; reflexivity|apply H2; discriminate].
Defined.

Lemma signup_issue_frame :
  forall db s e code now fresh mail_ok save_ok,
  let '(_, db', s') := signup_issue db s e code now fresh mail_ok save_ok in
  users db' = users db /\ notes db' = notes db /\
  (otps db' = otps db \/ otps db' = otps db ++ [mkOtp fresh e code now]) /\
  s_tempUserIdentifier s' = s_tempUserIdentifier s /\ s_userId s' = s_userId s.
Proof.
  intros. unfold signup_issue.
  destruct (String.eqb e ""); [repeat split; left; reflexivity|].
  destruct mail_ok; [destruct save_ok|]; simpl; repeat split; right; reflexivity.
Qed.

(** Both [/signup] variants, whatever the outcome, leave users and notes
    unchanged, add at most the one new OTP record, and never set the
    verified identity or the authenticated user id of the session. *)
Theorem signup_frame :
  forall db s e code now fresh mail_ok save_ok,
  (let '(_, db', s') := signup db s e code now fresh mail_ok save_ok in
   users db' = users db /\ notes db' = notes db /\
   (otps db' = otps db \/ otps db' = otps db ++ [mkOtp fresh e code now]) /\
   s_tempUserIdentifier s' = s_tempUserIdentifier s /\ s_userId s' = s_userId s) /\
  (let '(_, db', s') := signup_variant db s e code now fresh mail_ok save_ok in
   users db' = users db /\ notes db' = notes db /\
   (otps db' = otps db \/ otps db' = otps db ++ [mkOtp fresh e code now]) /\
   s_tempUserIdentifier s' = s_tempUserIdentifier s /\ s_userId s' = s_userId s).
Proof.
  intros. split; [apply signup_issue_frame|].
  unfold signup_variant. destruct (user_findOne (users db) e); [|apply signup_issue_frame].
  repeat split. left; reflexivity.
Qed.

(** [requireLogin]: without a user id in the session every notes route
    redirects to /login and changes neither the database nor the session. *)
Theorem notes_routes_require_login :
  forall db s id t c fresh now,
  s_userId s = None ->
  list_notes db s = (RRedirect "/login", db, s) /\
  create_note db s t c fresh now = (RRedirect "/login", db, s) /\
  get_note db s id = (RRedirect "/login", db, s) /\
  edit_note_form db s id = (RRedirect "/login", db, s) /\
  put_note db s id t c now = (RRedirect "/login", db, s) /\
  delete_note db s id = (RRedirect "/login", db, s).
Proof.
  intros db s id t c fresh now Hs.
  unfold list_notes, create_note, get_note, edit_note_form, put_note, delete_note, requireLogin.
  rewrite Hs. repeat split.
Qed.

Lemma notes_routes_require_login_witness :
  list_notes db_alice_note s_pending = (RRedirect "/login", db_alice_note, s_pending) /\
  create_note db_alice_note s_pending "x" "y" 51 500 = (RRedirect "/login", db_alice_note, s_pending) /\
  get_note db_alice_note s_pending 50 = (RRedirect "/login", db_alice_note, s_pending) /\
  edit_note_form db_alice_note s_pending 50 = (RRedirect "/login", db_alice_note, s_pending) /\
  put_note db_alice_note s_pending 50 "x" "y" 500 = (RRedirect "/login", db_alice_note, s_pending) /\
  delete_note db_alice_note s_pending 50 = (RRedirect "/login", db_alice_note, s_pending).
Proof.
  apply (notes_routes_require_login db_alice_note s_pending 50 "x" "y" 51 500). reflexivity.
Defined.

(** The extra [if (!req.session.userId)] check of the part_000 login runs
    right after the id is set and never fires: both login handlers behave
    the same on every input. *)
Theorem login_variant_same :
  forall bcrypt_compare db s e pw,
  login_variant bcrypt_compare db s e pw = login bcrypt_compare db s e pw.
Proof.
  intros. unfold login_variant, login.
  destruct (user_findOne (users db) e) as [u|]; [|reflexivity].
  destruct (negb (bcrypt_compare pw (password u))); reflexivity.
Qed.

Lemma otp_deleteOne_appended :
  forall l r, ~ In (otp_id r) (map otp_id l) -> otp_deleteOne (l ++ [r]) (otp_id r) = l.
Proof.
  induction l as [|x l IH]; intros r Hn; simpl.
  - rewrite Nat.eqb_refl; reflexivity.
  - simpl in Hn. destruct (Nat.eqb (otp_id x) (otp_id r)) eqn:E.
    + apply Nat.eqb_eq in E. exfalso; apply Hn; left; exact E.
    + rewrite IH; [reflexivity|]. intros H; apply Hn; right; exact H.
Qed.

(** Signing up and then verifying with the mailed code: when the new
    record's id is fresh and it is newer than every earlier record for the
    email, [/signup] redirects to /verify-otp, and [/verify-otp] with the
    mailed code (under any Mongo-conforming sort) redirects to
    /set-password, removes exactly the record the signup added (the OTP
    collection is back to what it was before the signup) and marks the
    email as verified. *)
Theorem signup_then_verify :
  forall f, mongo_sort_spec f ->
  forall db s e code now fresh,
  e <> "" -> ~ In fresh (map otp_id (otps db)) ->
  (forall r, In r (otps db) -> userIdentifier r = e -> (createdAt r < now)%Z) ->
  let '(resp1, db1, s1) := signup db s e code now fresh true true in
  resp1 = RRedirect "/verify-otp" /\
  verify_otp f db1 s1 code =
    (RRedirect "/set-password", set_otps db1 (otps db), mkSession (Some e) (Some e) (s_userId s)).
Proof.
  intros f Hf db s e code now fresh He Hfresh Hold.
  unfold signup, signup_issue. rewrite (proj2 (String.eqb_neq e "") He).
  cbn [negb]. cbv beta iota zeta. split; [reflexivity|].
  unfold verify_otp. cbn [s_userIdentifier set_userIdentifier otps send_mail set_otps].
  rewrite (proj2 (String.eqb_neq e "") He).
  set (r := mkOtp fresh e code now).
  destruct (sorted_head_strict_max f Hf (otp_find (otps db ++ [r]) e) r) as [rest Hhd].
  - apply in_otp_find. split; [apply in_or_app; right; left; reflexivity|reflexivity].
  - intros r' Hr' Hne. apply in_otp_find in Hr' as [Hr' Hre].
    apply in_app_or in Hr' as [Hr'|[Heq|[]]]; [|congruence].
    apply Hold; assumption.
  - rewrite Hhd. unfold r at 1. cbn [otp]. rewrite String.eqb_refl. cbn [negb].
    change fresh with (otp_id r). rewrite otp_deleteOne_appended; [reflexivity|exact Hfresh].
Qed.

Lemma signup_then_verify_witness :
  let '(resp1, db1, s1) := signup db_two_codes s_anonymous alice "654321" 3000 4 true true in
  resp1 = RRedirect "/verify-otp" /\
  verify_otp mongo_sort db1 s1 "654321" =
    (RRedirect "/set-password", set_otps db1 (otps db_two_codes), mkSession (Some alice) (Some alice) None).
Proof.
  apply (signup_then_verify mongo_sort mongo_sort_ok db_two_codes s_anonymous alice "654321" 3000 4).
  - discriminate.
  - simpl; lia.
  - intros r [<-|[<-|[<-|[]]]]; simpl; intros; try lia; discriminate.
Defined.

Lemma find_none_existsb : forall {A} (p : A -> bool) l, find p l = None -> existsb p l = false.
Proof.
  intros A p l H. induction l as [|x l IH]; [reflexivity|].
  simpl in *. destruct (p x); [discriminate|]. apply IH; exact H.
Qed.

Lemma find_app_none : forall {A} (p : A -> bool) l l', find p l = None -> find p (l ++ l') = find p l'.
Proof.
  intros A p l l' H. induction l as [|x l IH]; [reflexivity|].
  simpl in *. destruct (p x); [discriminate|]. apply IH; exact H.
Qed.

(** Setting a password for a verified email no User has yet (with the User
    model modelled from the spec) redirects to /notes, adds exactly one User
    with that email and the hash, and authenticates the session as it;
    afterwards [/login] with that email and a password matching the hash
    authenticates a fresh session as the same user. *)
Theorem set_password_then_login :
  forall bcrypt_compare db s e hashed fresh pw,
  s_tempUserIdentifier s = Some e -> user_findOne (users db) e = None ->
  bcrypt_compare pw hashed = true ->
  let '(resp, db', s') := set_password db s hashed fresh in
  resp = RRedirect "/notes" /\ users db' = users db ++ [mkUser fresh (Some e) hashed] /\
  s_userId s' = Some fresh /\
  login bcrypt_compare db' (mkSession None None None) e pw =
    (RRedirect "/notes", db', mkSession None None (Some fresh)).
Proof.
  intros bc db s e hashed fresh pw Hs Hnone Hbc.
  unfold set_password, user_save. rewrite Hs.
  unfold user_findOne in Hnone. cbn [email].
  rewrite (find_none_existsb _ _ Hnone). cbn. repeat split.
  unfold login, user_findOne. cbn. rewrite (find_app_none _ _ _ Hnone). cbn.
  rewrite String.eqb_refl. cbn [password]. rewrite Hbc. reflexivity.
Qed.

Lemma set_password_then_login_witness :
  let '(resp, db', s') := set_password db_alice_note (mkSession (Some "carol@example.com")
                            (Some "carol@example.com") None) "$2b$12$hashOfpw" 9 in
  resp = RRedirect "/notes" /\
  users db' = users db_alice_note ++ [mkUser 9 (Some "carol@example.com") "$2b$12$hashOfpw"] /\
  s_userId s' = Some 9 /\
  login bcrypt_compare_demo db' (mkSession None None None) "carol@example.com" "pw" =
    (RRedirect "/notes", db', mkSession None None (Some 9)).
Proof.
  apply (set_password_then_login bcrypt_compare_demo db_alice_note
           (mkSession (Some "carol@example.com") (Some "carol@example.com") None)
           "carol@example.com" "$2b$12$hashOfpw" 9 "pw"); reflexivity.
Defined.

(** Creating a note and listing: the list shown after [POST /notes] is the
    list shown before, followed by the new note. *)
Theorem create_then_list :
  forall db s uid t c fresh now,
  s_userId s = Some uid ->
  let db' := snd (fst (create_note db s t c fresh now)) in
  exists ns, list_notes db s = (RRender 200 "notes/index.ejs" (LNotes ns), db, s) /\
    list_notes db' s =
      (RRender 200 "notes/index.ejs" (LNotes (ns ++ [mkNote fresh t c uid now now])), db', s).
Proof.
  intros db s uid t c fresh now Hs db'.
  unfold db', list_notes, create_note, requireLogin. rewrite Hs.
  eexists. split; [reflexivity|]. cbn [fst snd notes set_notes].
  rewrite filter_app. cbn. rewrite Nat.eqb_refl. reflexivity.
Qed.

Lemma create_then_list_witness :
  let db' := snd (fst (create_note db_alice_note (mkSession None None (Some 7)) "todo" "call" 51 600)) in
  exists ns, list_notes db_alice_note (mkSession None None (Some 7)) =
      (RRender 200 "notes/index.ejs" (LNotes ns), db_alice_note, mkSession None None (Some 7)) /\
    list_notes db' (mkSession None None (Some 7)) =
      (RRender 200 "notes/index.ejs" (LNotes (ns ++ [mkNote 51 "todo" "call" 7 600 600])), db',
       mkSession None None (Some 7)).
Proof.
  apply (create_then_list db_alice_note (mkSession None None (Some 7)) 7 "todo" "call" 51 600).
  reflexivity.
Defined.

(** Creating a note under an id no note has: its owner then reads it back
    with [GET /notes/:id], and any other authenticated user gets the
    not-found page. *)
Theorem create_then_get :
  forall db s uid t c fresh now,
  s_userId s = Some uid -> (forall n, In n (notes db) -> note_id n <> fresh) ->
  let db' := snd (fst (create_note db s t c fresh now)) in
  get_note db' s fresh = (RRender 200 "notes/show" (LNote (mkNote fresh t c uid now now)), db', s) /\
  (forall s' uid', s_userId s' = Some uid' -> uid' <> uid ->
     get_note db' s' fresh = (note_not_found, db', s')).
Proof.
  intros db s uid t c fresh now Hs Hfresh db'.
  assert (Hnone : forall uid', find (note_matches fresh uid') (notes db) = None).
  { intros uid'. apply (note_findOne_none (notes db) fresh uid').
    apply no_match_of_absent; exact Hfresh. }
  assert (Hdb' : notes db' = notes db ++ [mkNote fresh t c uid now now]).
  { unfold db', create_note, requireLogin. rewrite Hs. reflexivity. }
  split.
  - unfold get_note, requireLogin, note_findOne. rewrite Hs, Hdb', find_app_none by apply Hnone.
    cbn. unfold note_matches; cbn. rewrite !Nat.eqb_refl. reflexivity.
  - intros s' uid' Hs' Hne. unfold get_note, requireLogin, note_findOne.
    rewrite Hs', Hdb', find_app_none by apply Hnone.
    cbn. unfold note_matches; cbn. rewrite Nat.eqb_refl.
    apply Nat.eqb_neq in Hne. rewrite Nat.eqb_sym, Hne. reflexivity.
Qed.

Lemma create_then_get_witness :
  let db' := snd (fst (create_note db_alice_note (mkSession None None (Some 7)) "todo" "call" 51 600)) in
  get_note db' (mkSession None None (Some 7)) 51 =
    (RRender 200 "notes/show" (LNote (mkNote 51 "todo" "call" 7 600 600)), db', mkSession None None (Some 7)) /\
  (forall s' uid', s_userId s' = Some uid' -> uid' <> 7 -> get_note db' s' 51 = (note_not_found, db', s')).
Proof.
  apply (create_then_get db_alice_note (mkSession None None (Some 7)) 7 "todo" "call" 51 600).
  - reflexivity.
  - intros n [<-|[]]; simpl; discriminate.
Defined.

Lemma note_findOneAndUpdate_found :
  forall l id uid t c now n, note_findOne l id uid = Some n ->
  let n' := mkNote (note_id n) t c (note_user n) (note_createdAt n) now in
  exists l', note_findOneAndUpdate l id uid t c now = (Some n', l') /\ note_findOne l' id uid = Some n'.
Proof.
  unfold note_findOne. induction l as [|x l IH]; intros id uid t c now n H; [discriminate|].
  cbn in H |- *. destruct (note_matches id uid x) eqn:Hm.
  - injection H as <-. eexists; split; [reflexivity|]. cbn.
    unfold note_matches in *; cbn. rewrite Hm. reflexivity.
  - destruct (IH id uid t c now n H) as (l' & Hu & Hf). rewrite Hu.
    exists (x :: l'). split; [reflexivity|]. cbn. rewrite Hm. exact Hf.
Qed.

(** Updating an owned note and reading it back: [PUT /notes/:id] redirects
    to /notes, and a following [GET /notes/:id] shows the note with the new
    title and content, its id, owner and [createdAt] kept and [updatedAt]
    set to the update time. *)
Theorem put_then_get :
  forall db s uid id n t c now,
  s_userId s = Some uid -> note_findOne (notes db) id uid = Some n ->
  let '(resp, db', s') := put_note db s id t c now in
  resp = RRedirect "/notes" /\ s' = s /\
  get_note db' s id =
    (RRender 200 "notes/show" (LNote (mkNote (note_id n) t c (note_user n) (note_createdAt n) now)), db', s).
Proof.
  intros db s uid id n t c now Hs Hn.
  destruct (note_findOneAndUpdate_found (notes db) id uid t c now n Hn) as (l' & Hu & Hf).
  unfold put_note, requireLogin. rewrite Hs, Hu. cbn [fst snd].
  repeat split. unfold get_note, requireLogin. rewrite Hs. cbn [notes set_notes].
  rewrite Hf. reflexivity.
Qed.

Lemma put_then_get_witness :
  let '(resp, db', s') := put_note db_alice_note (mkSession None None (Some 7)) 50 "groceries" "eggs" 700 in
  resp = RRedirect "/notes" /\ s' = mkSession None None (Some 7) /\
  get_note db' (mkSession None None (Some 7)) 50 =
    (RRender 200 "notes/show" (LNote (mkNote 50 "groceries" "eggs" 7 100 700)), db',
     mkSession None None (Some 7)).
Proof.
  apply (put_then_get db_alice_note (mkSession None None (Some 7)) 7 50
           (mkNote 50 "groceries" "milk" 7 100 100) "groceries" "eggs" 700); reflexivity.
Defined.

Lemma note_findOneAndDelete_found :
  forall l id uid n, note_findOne l id uid = Some n ->
  exists pre post, l = pre ++ n :: post /\ note_matches id uid n = true /\
    note_findOneAndDelete l id uid = (Some n, pre ++ post).
Proof.
  unfold note_findOne. induction l as [|x l IH]; intros id uid n H; [discriminate|].
  cbn in H |- *. destruct (note_matches id uid x) eqn:Hm.
  - injection H as <-. exists [], l. auto.
  - destruct (IH id uid n H) as (pre & post & Hl & Hn & ->).
    exists (x :: pre), post. rewrite Hl. auto.
Qed.

(** Deleting an owned note, when note ids are unique: [DELETE /notes/:id]
    redirects to /notes, and afterwards both [GET] and a second [DELETE] on
    the same id give the not-found page without further change. *)
Theorem delete_then_get :
  forall db s uid id n,
  s_userId s = Some uid -> note_ids_unique (notes db) = true ->
  note_findOne (notes db) id uid = Some n ->
  let '(resp, db', s') := delete_note db s id in
  resp = RRedirect "/notes" /\ s' = s /\
  get_note db' s id = (note_not_found, db', s) /\
  delete_note db' s id = (note_not_found, db', s).
Proof.
  intros db s uid id n Hs Hu Hn.
  destruct (note_findOneAndDelete_found (notes db) id uid n Hn) as (pre & post & Hl & Hm & Hd).
  assert (Habs : forall n', In n' (pre ++ post) -> note_id n' <> id).
  { intros n' Hin Heq. unfold note_ids_unique in Hu.
    rewrite Hl, nodup_nat_NoDup, map_app in Hu. cbn in Hu.
    apply andb_prop in Hm as [Hm _]. apply Nat.eqb_eq in Hm.
    apply (NoDup_remove_2 _ _ _ Hu). rewrite <- map_app, Hm, <- Heq.
    apply in_map; exact Hin. }
  pose proof (no_match_of_absent _ _ uid Habs) as Hnm.
  unfold delete_note, get_note, requireLogin. rewrite Hs, Hd. cbn [fst snd notes set_notes].
  rewrite (note_findOne_none _ _ _ Hnm), (note_findOneAndDelete_none _ _ _ Hnm).
  repeat split.
Qed.

Lemma delete_then_get_witness :
  let '(resp, db', s') := delete_note db_alice_note (mkSession None None (Some 7)) 50 in
  resp = RRedirect "/notes" /\ s' = mkSession None None (Some 7) /\
  get_note db' (mkSession None None (Some 7)) 50 = (note_not_found, db', mkSession None None (Some 7)) /\
  delete_note db' (mkSession None None (Some 7)) 50 = (note_not_found, db', mkSession None None (Some 7)).
Proof.
  apply (delete_then_get db_alice_note (mkSession None None (Some 7)) 7 50
           (mkNote 50 "groceries" "milk" 7 100 100)); reflexivity.
Defined.

(** [GET /logout] ends every flow: it changes no stored data, and with the
    session it leaves behind the notes routes redirect to /login and
    [/verify-otp] answers "Session expired or email not found.". *)
Theorem logout_ends_session :
  forall f db s id code,
  let '(resp, db', s') := logout db s in
  resp = RRedirect "/login" /\ db' = db /\ s' = mkSession None None None /\
  list_notes db' s' = (RRedirect "/login", db', s') /\
  get_note db' s' id = (RRedirect "/login", db', s') /\
  verify_otp f db' s' code = (RSend "Session expired or email not found.", db', s').
Proof.
  intros. repeat split.
Qed.


